(** * KiCAD-MCP-Server: the board command facade and the board-load diagnostic

    Two source files are embedded here:

    - [python/commands/board/__init__.py]: class [BoardCommands], a facade
      that keeps one board reference and copies it into four sub-handler
      objects, and ten methods that delegate to them (module [Facade]);
    - [diagnose_board_load.py]: a linear script of guarded probes of the
      [pcbnew] toolkit (module [Diagnose], and module [DiagnoseIO] for
      the same script on streams that can fail).

    Definitions come first, the properties after them. *)

From Stdlib Require Import ZArith Ascii.
From stdpp Require Import base option list strings pretty gmap.

(** [o is None] *)
Definition is_None {A} (o : option A) : bool :=
  match o with
  | None => true
  | Some _ => false
  end.

(** [str(b)] for a Python bool, as an f-string prints it. *)
Definition str_bool (b : bool) : string :=
  if b then "True" else "False".

(* ===================================================================== *)
(** * Part I: [python/commands/board/__init__.py]                          *)
(* ===================================================================== *)

Module Facade.

(** Values that travel inside a [Dict[str, Any]]. The facade never looks
    into them. *)
Inductive Value :=
| VNone
| VBool (b : bool)
| VInt (z : Z)
| VStr (s : string).

(** [Dict[str, Any]]: the parameter mapping and the result mapping. *)
Abbreviation Dict := (gmap string Value).

(** The four attributes of the facade that hold a sub-handler:
    [size_commands], [layer_commands], [outline_commands],
    [view_commands]. *)
Inductive Category := CSize | CLayer | COutline | CView.

#[global] Instance Category_eq_dec : EqDecision Category.
Proof. solve_decision. Defined.

(** Modelled from the spec: the error "UnknownOperation" of §4.1 and §7.
    [__init__.py] defines no exception of its own; every other exception
    is a Python exception raised below the facade, kept as its class name
    and message. *)
Inductive Exn :=
| UnknownOperation
| PyExn (cls msg : string).

(** A call either returns a value or raises. *)
Inductive Outcome (A : Type) :=
| Return (a : A)
| Raise (e : Exn).
Arguments Return {A} a.
Arguments Raise {A} e.

Inductive Level := DEBUG | INFO.

(** What an execution leaves behind besides the objects: the calls made
    on sub-handlers and the records handed to the logger
    ['kicad_interface'], in program order. *)
Inductive Event :=
| Call (c : Category) (name : string) (params : Dict)
| Log (lvl : Level) (msg : string).

Section Objects.

(** [Handle]: references to [pcbnew.BOARD] objects ([None] is [None]);
    [World]: the state of the toolkit behind the handles;
    [Attrs]: whatever a sub-handler object stores besides its board. *)
Context {Handle World Attrs : Type}.

(** Modelled from the spec: the classes BoardSizeCommands,
    BoardLayerCommands, BoardOutlineCommands and BoardViewCommands
    (size.py, layers.py, outline.py, view.py) are imported by
    [__init__.py] and are not among the files embedded here. §3 gives a
    sub-handler "a copy of the DocumentHandle reference"; the facade
    writes it as the plain attribute [board]. *)
Record SubHandler := {
  board : option Handle;
  attrs : Attrs
}.

(** A method of a sub-handler class, called as [handler.name(params)]:
    it sees its object, the parameters and the toolkit; it returns or
    raises, and leaves its object and the toolkit as it pleases. *)
Definition Method : Type :=
  SubHandler → Dict → World → Outcome Dict * SubHandler * World.

(** The code of the four missing classes, taken as a parameter. The
    facade asks a class only for methods it defines. *)
Record SubHandlerCode := {
  (** what [__init__] of class [c] stores besides the board *)
  sub_init : Category → option Handle → Attrs;
  (** the method of class [c] with the given name *)
  sub_method : Category → string → Method
}.

(** Modelled from the spec: the constructors of the four missing classes.
    §4.1: each sub-handler is "initialized with initialHandle", "no error
    conditions". *)
Definition new_handler (code : SubHandlerCode) (c : Category)
    (b : option Handle) : SubHandler :=
  {| board := b; attrs := sub_init code c b |}.

(** An object of class [BoardCommands]. *)
Record BoardCommands := {
  _board : option Handle;
  size_commands : SubHandler;
  layer_commands : SubHandler;
  outline_commands : SubHandler;
  view_commands : SubHandler
}.

(** [self.<c>] *)
Definition get_sub (c : Category) (s : BoardCommands) : SubHandler :=
  match c with
  | CSize => size_commands s
  | CLayer => layer_commands s
  | COutline => outline_commands s
  | CView => view_commands s
  end.

(** The object [self] after the sub-handler in slot [c] has become [h]. *)
Definition set_sub (c : Category) (h : SubHandler) (s : BoardCommands)
    : BoardCommands :=
  match c with
  | CSize =>
      {| _board := _board s; size_commands := h;
         layer_commands := layer_commands s;
         outline_commands := outline_commands s;
         view_commands := view_commands s |}
  | CLayer =>
      {| _board := _board s; size_commands := size_commands s;
         layer_commands := h;
         outline_commands := outline_commands s;
         view_commands := view_commands s |}
  | COutline =>
      {| _board := _board s; size_commands := size_commands s;
         layer_commands := layer_commands s;
         outline_commands := h;
         view_commands := view_commands s |}
  | CView =>
      {| _board := _board s; size_commands := size_commands s;
         layer_commands := layer_commands s;
         outline_commands := outline_commands s;
         view_commands := h |}
  end.

(** The state a method of the facade runs in. *)
Record State := {
  self : BoardCommands;
  world : World;
  trace : list Event
}.

(** Methods of the facade: state passing, with exceptions. A raised
    exception keeps the state reached so far. *)
Definition M (A : Type) : Type := State → Outcome A * State.

#[global] Instance M_ret : MRet M := λ A a st, (Return a, st).

#[global] Instance M_bind : MBind M := λ A B k m st,
  match m st with
  | (Return a, st') => k a st'
  | (Raise e, st') => (Raise e, st')
  end.

Definition raise {A} (e : Exn) : M A := λ st, (Raise e, st).

Definition emit (ev : Event) : M unit := λ st,
  (Return (),
   {| self := self st; world := world st; trace := trace st ++ [ev] |}).

(** [logger.debug(msg)] and [logger.info(msg)] *)
Definition logger_debug (msg : string) : M unit := emit (Log DEBUG msg).
Definition logger_info (msg : string) : M unit := emit (Log INFO msg).

Variable code : SubHandlerCode.

(** [BoardCommands.__init__(self, board=None)] *)
Definition __init__ (board : option Handle) : BoardCommands :=
  {| _board := board;
     size_commands := new_handler code CSize board;
     layer_commands := new_handler code CLayer board;
     outline_commands := new_handler code COutline board;
     view_commands := new_handler code CView board |}.

(** The property [board], getter: [return self._board] *)
Definition board_getter : M (option Handle) := λ st,
  (Return (_board (self st)), st).

(** [self._board = value] *)
Definition assign_board (value : option Handle) : M unit := λ st,
  (Return (),
   {| self :=
        {| _board := value;
           size_commands := size_commands (self st);
           layer_commands := layer_commands (self st);
           outline_commands := outline_commands (self st);
           view_commands := view_commands (self st) |};
      world := world st; trace := trace st |}).

(** [self.<c>.board = value] *)
Definition assign_sub_board (c : Category) (value : option Handle)
    : M unit := λ st,
  (Return (),
   {| self :=
        set_sub c {| board := value; attrs := attrs (get_sub c (self st)) |}
          (self st);
      world := world st; trace := trace st |}).

(** The property [board], setter. *)
Definition board_setter (value : option Handle) : M unit :=
  assign_board value ;;
  assign_sub_board CSize value ;;
  assign_sub_board CLayer value ;;
  assign_sub_board COutline value ;;
  assign_sub_board CView value ;;
  logger_debug
    ("BoardCommands: board reference updated and propagated to all sub-commands. board is None: "
     +:+ str_bool (is_None value)).

(** [self.<c>.<name>(params)]: the method [name] of the class of the
    sub-handler in slot [c] runs on that object; what it does to its
    object and to the toolkit stays, whether it returns or raises. *)
Definition call_sub (c : Category) (name : string) (params : Dict)
    : M Dict := λ st,
  let '(o, h', w') :=
    sub_method code c name (get_sub c (self st)) params (world st) in
  (o, {| self := set_sub c h' (self st); world := w';
         trace := trace st ++ [Call c name params] |}).

(** Delegate board size commands *)
Definition set_board_size (params : Dict) : M Dict :=
  call_sub CSize "set_board_size" params.

(** Delegate layer commands *)
Definition add_layer (params : Dict) : M Dict :=
  call_sub CLayer "add_layer" params.

Definition set_active_layer (params : Dict) : M Dict :=
  call_sub CLayer "set_active_layer" params.

Definition get_layer_list (params : Dict) : M Dict :=
  call_sub CLayer "get_layer_list" params.

(** Delegate board outline commands *)
Definition add_board_outline (params : Dict) : M Dict :=
  call_sub COutline "add_board_outline" params.

Definition add_mounting_hole (params : Dict) : M Dict :=
  call_sub COutline "add_mounting_hole" params.

Definition add_text (params : Dict) : M Dict :=
  call_sub COutline "add_text" params.

(** Delegate view commands *)
Definition get_board_info (params : Dict) : M Dict :=
  b ← board_getter;
  logger_info
    ("BoardCommands.get_board_info() called. self.board is None: "
     +:+ str_bool (is_None b)) ;;
  call_sub CView "get_board_info" params.

Definition get_board_2d_view (params : Dict) : M Dict :=
  call_sub CView "get_board_2d_view" params.

Definition get_board_extents (params : Dict) : M Dict :=
  call_sub CView "get_board_extents" params.

(** The command methods of the class, by name, in the order of the file. *)
Definition commands : list (string * (Dict → M Dict)) :=
  [ ("set_board_size", set_board_size);
    ("add_layer", add_layer);
    ("set_active_layer", set_active_layer);
    ("get_layer_list", get_layer_list);
    ("add_board_outline", add_board_outline);
    ("add_mounting_hole", add_mounting_hole);
    ("add_text", add_text);
    ("get_board_info", get_board_info);
    ("get_board_2d_view", get_board_2d_view);
    ("get_board_extents", get_board_extents) ].

(** Modelled from the spec: "invoke(operationName, params)" of §4.1. The
    class has no method of that name: a caller writes
    [commands.<name>(params)]. The lookup by name and its failure with
    "UnknownOperation" follow the spec's words; what runs when the name
    is found is the method of the source. *)
Definition invoke (name : string) (params : Dict) : M Dict :=
  match (list_to_map commands : gmap string (Dict → M Dict)) !! name with
  | Some method => method params
  | None => raise UnknownOperation
  end.

(** A sequence of assignments to the property [board]. *)
Fixpoint set_boards (values : list (option Handle)) : M unit :=
  match values with
  | [] => mret ()
  | value :: rest => board_setter value ;; set_boards rest
  end.

End Objects.

Arguments SubHandler : clear implicits.
Arguments SubHandlerCode : clear implicits.
Arguments BoardCommands : clear implicits.
Arguments State : clear implicits.
Arguments Method : clear implicits.

(** The routing table as §4.1 of the specification prints it. *)
Definition routing_table : list (string * Category) :=
  [ ("set_board_size", CSize);
    ("add_layer", CLayer);
    ("set_active_layer", CLayer);
    ("get_layer_list", CLayer);
    ("add_board_outline", COutline);
    ("add_mounting_hole", COutline);
    ("add_text", COutline);
    ("get_board_info", CView);
    ("get_board_2d_view", CView);
    ("get_board_extents", CView) ].

(** The sub-handler that owns an operation name, if any. *)
Definition owner (name : string) : option Category :=
  (list_to_map routing_table : gmap string Category) !! name.

(** The five copies of the board reference of a facade all are [h]. *)
Definition all_boards {Handle Attrs : Type} (h : option Handle)
    (s : BoardCommands Handle Attrs) : Prop :=
  _board s = h ∧ ∀ c, board (get_sub c s) = h.

(** Modelled from the spec: the method bodies of the four sub-handler
    classes are not among the files embedded here. §5: "the shared
    DocumentHandle is mutated only by setDocument"; for a sub-handler
    method this says that it leaves the attribute [board] of its object
    as it found it. *)
Definition keeps_board {Handle World Attrs : Type}
    (code : SubHandlerCode Handle World Attrs) : Prop :=
  ∀ c name h params w,
    board (sub_method code c name h params w).1.2 = board h.

(** The calls on sub-handlers recorded in a trace. *)
Definition calls (t : list Event) : list (Category * string * Dict) :=
  omap (λ ev, match ev with
              | Call c name params => Some (c, name, params)
              | Log _ _ => None
              end) t.

(** What a caller does to a facade: it assigns to the property [board]
    or it invokes an operation by name. *)
Inductive Action (Handle : Type) :=
| SetBoard (value : option Handle)
| Invoke (name : string) (params : Dict).
Arguments SetBoard {Handle} value.
Arguments Invoke {Handle} name params.

(** The state after a history of actions, taken by a caller that goes on
    to its next action whether an invocation returned or raised. *)
Fixpoint run_actions {Handle World Attrs : Type}
    (code : SubHandlerCode Handle World Attrs)
    (history : list (Action Handle)) (st : State Handle World Attrs)
    : State Handle World Attrs :=
  match history with
  | [] => st
  | SetBoard value :: rest =>
      run_actions code rest (board_setter value st).2
  | Invoke name params :: rest =>
      run_actions code rest (invoke code name params st).2
  end.

(** The reference assigned last in a history, [h] when none was. *)
Fixpoint last_assigned {Handle : Type} (h : option Handle)
    (history : list (Action Handle)) : option Handle :=
  match history with
  | [] => h
  | SetBoard value :: rest => last_assigned value rest
  | Invoke _ _ :: rest => last_assigned h rest
  end.

(** The record the setter hands to the logger, and the one
    [get_board_info] does. *)
Definition setter_record {Handle : Type} (value : option Handle) : Event :=
  Log DEBUG
    ("BoardCommands: board reference updated and propagated to all sub-commands. board is None: "
     +:+ str_bool (is_None value)).

Definition info_record {Handle : Type} (b : option Handle) : Event :=
  Log INFO
    ("BoardCommands.get_board_info() called. self.board is None: "
     +:+ str_bool (is_None b)).

End Facade.

(* ===================================================================== *)
(** * Part II: [diagnose_board_load.py]                                    *)
(* ===================================================================== *)

Module Diagnose.

(** The exceptions the script tells apart in its [except] clauses:
    instances of [ImportError], instances of [AttributeError], and the
    other subclasses of [Exception]. Exceptions outside [Exception]
    ([KeyboardInterrupt], a [SystemExit] raised inside the toolkit) are
    not part of this model. *)
Inductive ExcClass := ImportError | AttributeError | OtherException.

#[global] Instance ExcClass_eq_dec : EqDecision ExcClass.
Proof. solve_decision. Defined.

Record Exc := {
  exc_class : ExcClass;
  exc_type : string;   (* type(e).__name__ *)
  exc_str : string     (* str(e) *)
}.

#[global] Instance Exc_eq_dec : EqDecision Exc.
Proof. solve_decision. Defined.

(** What a call into the interpreter's libraries or into the toolkit
    answers: a value or an exception. *)
Inductive Res (A : Type) :=
| Ok (a : A)
| Err (e : Exc).
Arguments Ok {A} a.
Arguments Err {A} e.

(** The objects of the toolkit, each given by what its methods answer
    during the run. *)
Record BBox := {
  GetWidth : Res Z;
  GetHeight : Res Z
}.

Record Footprints := {
  len : Res Z
}.

Record NetInfo := {
  GetNetCount : Res Z
}.

Record Board := {
  board_str : Res string;             (* str(board) *)
  board_type : string;                (* str(type(board)) *)
  board_bool : Res bool;              (* bool(board) *)
  SetFileName : string → Res unit;
  GetFileName : Res string;
  GetBoardEdgesBoundingBox : Res BBox;
  GetFootprints : Res Footprints;
  GetNetInfo : Res NetInfo;
  thisown : Res string                (* str(board.thisown) *)
}.

(** The module [pcbnew] once imported. [BOARD n] is the [n]-th call of
    the constructor, which yields an object when it does not raise. *)
Record Pcbnew := {
  pcbnew_file : Res string;           (* str(pcbnew.__file__) *)
  GetBuildVersion : Res string;
  BOARD : nat → Res Board;
  LoadBoard : string → Res (option Board);
  SaveBoard : string → Res unit
}.

(** The interpreter and the machine the script runs on. *)
Record Env := {
  sys_platform : string;
  sys_version : string;
  sys_executable : string;
  sys_path : list string;             (* sys.path when the script starts *)
  script_file : string;               (* __file__ *)
  os_path_exists : string → bool;
  os_path_abspath : string → string;
  os_path_dirname : string → string;
  os_path_join : list string → string;
  os_remove : string → Res unit;
  repr_list : list string → string;   (* repr() of a list of str *)
  str_div_1e6 : Z → string;           (* str(n / 1e6), a float *)
  import_pcbnew : Res Pcbnew          (* the statement [import pcbnew] *)
}.

(** What the run writes: lines on stdout and the tracebacks of
    [traceback.print_exc()]. *)
Inductive Event :=
| Print (line : string)
| PrintExc (e : Exc).

#[global] Instance Event_eq_dec : EqDecision Event.
Proof. solve_decision. Defined.

(** The state of the script: [sys.path] and what was written so far. *)
Record St := {
  path : list string;
  out : list Event
}.

(** How a piece of the script ends: with a value, with an exception on
    its way up, or with the [SystemExit] of [sys.exit(code)]. *)
Inductive Ctl (A : Type) :=
| Val (a : A)
| Exn (e : Exc)
| SysExit (code : Z).
Arguments Val {A} a.
Arguments Exn {A} e.
Arguments SysExit {A} code.

Definition M (A : Type) : Type := St → Ctl A * St.

#[global] Instance script_ret : MRet M := λ A a st, (Val a, st).

#[global] Instance script_bind : MBind M := λ A B k m st,
  match m st with
  | (Val a, st') => k a st'
  | (Exn e, st') => (Exn e, st')
  | (SysExit code, st') => (SysExit code, st')
  end.

(** A call whose answer the environment gives. The call answers and
    does nothing else to the script: in particular it is not modelled to
    write [sys.path]. *)
Definition call {A} (r : Res A) : M A := λ st,
  match r with
  | Ok a => (Val a, st)
  | Err e => (Exn e, st)
  end.

(** [print(line)] on a stdout that takes the line. The [print] that can
    raise is that of [DiagnoseIO]. *)
Definition print (line : string) : M unit := λ st,
  (Val (), {| path := path st; out := out st ++ [Print line] |}).

(** [traceback.print_exc()] in the handler of [e] *)
Definition print_exc (e : Exc) : M unit := λ st,
  (Val (), {| path := path st; out := out st ++ [PrintExc e] |}).

(** [sys.exit(code)] *)
Definition sys_exit {A} (code : Z) : M A := λ st, (SysExit code, st).

(** [try: body  except <class> as e: handler]. [SystemExit] is not an
    [Exception] and passes through. *)
Definition try_except {A} (body : M A) (catches : Exc → bool)
    (handler : Exc → M A) : M A := λ st,
  match body st with
  | (Exn e, st') => if catches e then handler e st' else (Exn e, st')
  | r => r
  end.

(** [except ImportError], [except AttributeError], [except Exception] *)
Definition is_ImportError (e : Exc) : bool :=
  bool_decide (exc_class e = ImportError).

Definition is_AttributeError (e : Exc) : bool :=
  bool_decide (exc_class e = AttributeError).

Definition is_Exception (e : Exc) : bool :=
  match exc_class e with
  | ImportError | AttributeError | OtherException => true
  end.

(** [for x in xs: body] *)
Fixpoint for_each {A} (xs : list A) (body : A → M unit) : M unit :=
  match xs with
  | [] => mret ()
  | x :: rest => body x ;; for_each rest body
  end.

(** [s * n] on strings *)
Fixpoint str_mul (s : string) (n : nat) : string :=
  match n with
  | O => ""
  | S n' => s +:+ str_mul s n'
  end.

(** [str(x)] and [str(type(x))] for what [LoadBoard] returned *)
Definition str_opt (b : option Board) : Res string :=
  match b with
  | Some b => board_str b
  | None => Ok "None"
  end.

Definition type_opt (b : option Board) : string :=
  match b with
  | Some b => board_type b
  | None => "<class 'NoneType'>"
  end.

(** ** Lines 13-18: add KiCad Python paths *)

Definition versions : list string := ["3.9"; "3.10"; "3.11"; "3.12"; "3.13"].

Definition site_packages (version : string) : string :=
  "/Applications/KiCad/KiCad.app/Contents/Frameworks/Python.framework/Versions/"
  +:+ version +:+ "/lib/python" +:+ version +:+ "/site-packages".

(** [sys.path.insert(0, p)] *)
Definition sys_path_insert0 (p : string) : M unit := λ st,
  (Val (), {| path := p :: path st; out := out st |}).

Definition get_sys_path : M (list string) := λ st, (Val (path st), st).

(** Lines 16-18: the body of the loop. *)
Definition add_path (env : Env) (version : string) : M unit :=
  let path := site_packages version in
  sp ← get_sys_path;
  if os_path_exists env path && bool_decide (path ∉ sp)
  then sys_path_insert0 path
  else mret ().

Definition add_kicad_paths (env : Env) : M unit :=
  if bool_decide (sys_platform env = "darwin") then
    for_each versions (add_path env)
  else mret ().

(** ** Lines 20-23: what the interpreter is *)

Definition header (env : Env) : M unit :=
  print ("Python version: " +:+ sys_version env) ;;
  print ("Python executable: " +:+ sys_executable env) ;;
  sp ← get_sys_path;
  print ("sys.path: " +:+ repr_list env (take 5 sp) +:+ "...") ;;
  print "".

(** ** Lines 25-32: the import of [pcbnew] under its guard *)

Definition import_body (env : Env) : M Pcbnew :=
  pcbnew ← call (import_pcbnew env);
  file ← call (pcbnew_file pcbnew);
  print ("pcbnew imported from: " +:+ file) ;;
  version ← call (GetBuildVersion pcbnew);
  print ("pcbnew version: " +:+ version) ;;
  print "" ;;
  mret pcbnew.

Definition import_handler (e : Exc) : M Pcbnew :=
  print ("FAILED to import pcbnew: " +:+ exc_str e) ;;
  sys_exit 1.

Definition import_guard (env : Env) : M Pcbnew :=
  try_except (import_body env) is_ImportError import_handler.

(** ** Lines 34-46: test 1, create a new board *)

Definition banner1 : string := "TEST 1: Create new board with pcbnew.BOARD()".

Definition test1 (pcbnew : Pcbnew) : M unit :=
  print (str_mul "=" 60) ;;
  print banner1 ;;
  print (str_mul "=" 60) ;;
  try_except
    (board ← call (BOARD pcbnew 0);
     s ← call (board_str board);
     print ("  board = " +:+ s) ;;
     print ("  type(board) = " +:+ board_type board) ;;
     (* [board] is the object the constructor returned *)
     print ("  board is None: " +:+ str_bool false) ;;
     b ← call (board_bool board);
     print ("  bool(board): " +:+ str_bool b) ;;
     print "  Result: PASS")
    is_Exception
    (λ e, print ("  FAILED: " +:+ exc_str e)).

(** ** Lines 50-123: test 2, load the Duck Stand board *)

Definition banner2 : string := "TEST 2: Load Duck Stand board".

Definition script_dir (env : Env) : string :=
  os_path_dirname env (os_path_abspath env (script_file env)).

Definition board_path (env : Env) : string :=
  os_path_abspath env
    (os_path_join env
       [script_dir env; ".."; "Duck_Stand_Charge_Board";
        "Duck_Stand_Charge_Board.kicad_pcb"]).

Definition alt_path (env : Env) : string :=
  os_path_join env
    [script_dir env; "Duck_Stand_Charge_Board";
     "Duck_Stand_Charge_Board.kicad_pcb"].

(** Lines 72-107: the probes of a board that was loaded. *)
Definition probe_board2 (env : Env) (board2 : Board) : M unit :=
  try_except
    (b ← call (board_bool board2);
     print ("  bool(board2): " +:+ str_bool b))
    is_Exception
    (λ e, print ("  bool(board2) FAILED: " +:+ exc_str e)) ;;
  try_except
    (name ← call (GetFileName board2);
     print ("  GetFileName(): " +:+ name))
    is_Exception
    (λ e, print ("  GetFileName() FAILED: " +:+ exc_str e)) ;;
  try_except
    (bbox ← call (GetBoardEdgesBoundingBox board2);
     w ← call (GetWidth bbox);
     print ("  BBox width: " +:+ str_div_1e6 env w +:+ " mm") ;;
     h ← call (GetHeight bbox);
     print ("  BBox height: " +:+ str_div_1e6 env h +:+ " mm"))
    is_Exception
    (λ e, print ("  GetBoardEdgesBoundingBox() FAILED: " +:+ exc_str e)) ;;
  try_except
    (footprints ← call (GetFootprints board2);
     n ← call (len footprints);
     print ("  Footprint count: " +:+ pretty n))
    is_Exception
    (λ e, print ("  GetFootprints() FAILED: " +:+ exc_str e)) ;;
  try_except
    (nets ← call (GetNetInfo board2);
     n ← call (GetNetCount nets);
     print ("  Net count: " +:+ pretty n))
    is_Exception
    (λ e, print ("  GetNetInfo() FAILED: " +:+ exc_str e)) ;;
  try_except
    (own ← call (thisown board2);
     print ("  board2.thisown: " +:+ own))
    is_AttributeError
    (λ _, print "  board2.thisown: (attribute not available)") ;;
  print "  Result: PASS".

Definition test2 (env : Env) (pcbnew : Pcbnew) : M unit :=
  print (str_mul "=" 60) ;;
  print banner2 ;;
  print ("  Path: " +:+ board_path env) ;;
  print ("  Exists: " +:+ str_bool (os_path_exists env (board_path env))) ;;
  print (str_mul "=" 60) ;;
  if os_path_exists env (board_path env) then
    try_except
      (board2 ← call (LoadBoard pcbnew (board_path env));
       s ← call (str_opt board2);
       print ("  board2 = " +:+ s) ;;
       print ("  type(board2) = " +:+ type_opt board2) ;;
       print ("  board2 is None: " +:+ str_bool (is_None board2)) ;;
       match board2 with
       | Some board2 => probe_board2 env board2
       | None => print "  Result: FAIL - LoadBoard returned None"
       end)
      is_Exception
      (λ e,
        print ("  FAILED with exception: " +:+ exc_type e +:+ ": "
               +:+ exc_str e) ;;
        print_exc e)
  else
    print "  SKIPPED - file not found" ;;
    print ("  Try alternative: " +:+ alt_path env) ;;
    print ("  Alt exists: " +:+ str_bool (os_path_exists env (alt_path env))).

(** ** Lines 127-152: test 3, save and reload *)

Definition banner3 : string := "TEST 3: Create board, save to /tmp, reload".

Definition tmp_path : string := "/tmp/test_mcp_diag.kicad_pcb".

Definition test3 (env : Env) (pcbnew : Pcbnew) : M unit :=
  print (str_mul "=" 60) ;;
  print banner3 ;;
  print (str_mul "=" 60) ;;
  try_except
    (board3 ← call (BOARD pcbnew 1);
     call (SetFileName board3 tmp_path) ;;
     call (SaveBoard pcbnew tmp_path) ;;
     print ("  Saved to: " +:+ tmp_path) ;;
     board3_reload ← call (LoadBoard pcbnew tmp_path);
     s ← call (str_opt board3_reload);
     print ("  Reloaded board: " +:+ s) ;;
     print ("  Is None: " +:+ str_bool (is_None board3_reload)) ;;
     match board3_reload with
     | Some reloaded =>
         b ← call (board_bool reloaded);
         print ("  bool: " +:+ str_bool b) ;;
         name ← call (GetFileName reloaded);
         print ("  GetFileName: " +:+ name) ;;
         print "  Result: PASS"
     | None => print "  Result: FAIL - reload returned None"
     end ;;
     call (os_remove env tmp_path))
    is_Exception
    (λ e, print ("  FAILED: " +:+ exc_str e) ;; print_exc e).

(** ** The script *)

Definition tests (env : Env) (pcbnew : Pcbnew) : M unit :=
  test1 pcbnew ;;
  print "" ;;
  test2 env pcbnew ;;
  print "" ;;
  test3 env pcbnew ;;
  print "" ;;
  print "Diagnostics complete.".

Definition script (env : Env) : M unit :=
  add_kicad_paths env ;;
  header env ;;
  pcbnew ← import_guard env;
  tests env pcbnew.

(** The run of the script in an environment. *)
Definition run (env : Env) : Ctl unit * St :=
  script env {| path := sys_path env; out := [] |}.

(** The exit status of the interpreter: 0 when the script runs to its
    end, the code of [sys.exit], and 1 after the traceback of an
    exception that nothing caught. *)
Definition exit_status {A} (c : Ctl A) : Z :=
  match c with
  | Val _ => 0
  | Exn _ => 1
  | SysExit code => code
  end.

(** A test has run when its banner is on stdout. *)
Definition ran_test (banner : string) (st : St) : Prop :=
  Print banner ∈ out st.

(** The candidate directories of the path setup, in loop order. *)
Definition candidates : list string := site_packages <$> versions.

(** Among the directories of the versions [vs], those that exist and
    are not in the search path [sp]. *)
Definition fresh (env : Env) (sp : list string) (vs : list string)
    : list string :=
  filter (λ p, os_path_exists env p = true ∧ p ∉ sp) (site_packages <$> vs).

(** The first exception raised in the body of the guarded [try], if
    there is one: by [import pcbnew], by [pcbnew.__file__] or by
    [pcbnew.GetBuildVersion()]. *)
Definition guard_raises (env : Env) : option Exc :=
  match import_pcbnew env with
  | Err e => Some e
  | Ok pcbnew =>
      match pcbnew_file pcbnew with
      | Err e => Some e
      | Ok _ =>
          match GetBuildVersion pcbnew with
          | Err e => Some e
          | Ok _ => None
          end
      end
  end.

(** Every banner starts with a capital T; a line that does not is no
    banner. *)
Definition plain (line : string) : Prop :=
  String.get 0 line ≠ Some "T"%char.

(** [m] only adds to what is written, and does not leave through
    [sys.exit]. *)
Definition no_exit {A} (m : M A) : Prop :=
  ∀ st, out st `prefix_of` out (m st).2 ∧ ∀ code, (m st).1 ≠ SysExit code.

(** [m] only adds to what is written, and returns: no exception, no
    exit. *)
Definition returns {A} (m : M A) : Prop :=
  ∀ st, out st `prefix_of` out (m st).2 ∧ ∃ a, (m st).1 = Val a.






(** The four lines of the header when [sys.path] is [sp]. *)
Definition header_lines (env : Env) (sp : list string) : list string :=
  [ "Python version: " +:+ sys_version env;
    "Python executable: " +:+ sys_executable env;
    "sys.path: " +:+ repr_list env (take 5 sp) +:+ "...";
    "" ].

(** The state the script starts in. *)
Definition start (env : Env) : St := {| path := sys_path env; out := [] |}.



End Diagnose.

(* ===================================================================== *)
(** * Part II, continued: the script on streams that can fail              *)
(* ===================================================================== *)

(** In [Diagnose] every [print] succeeds and every call of [os.path]
    returns. Here the script is written out again, statement for
    statement, over streams that may refuse a write and a working
    directory that may be gone: [print] and [os.path.abspath] then raise
    where they stand, inside a [try] or outside one. When nothing of the
    kind fails the two scripts are the same. *)
Module DiagnoseIO.

Import Diagnose.

(** What the streams of the interpreter and the operating system do
    during the run. [write t ev] is the exception that writing [ev]
    raises after [t] was written ([OSError] on a closed or full stream,
    [UnicodeEncodeError] for a character the encoding lacks), [None]
    when the write succeeds. [flush_fails t] tells whether the flush of
    the streams when the interpreter exits, after [t] was written, fails.
    [abspath_raises p] is the exception [os.path.abspath(p)] raises (for
    a relative [p] when the working directory is gone), [None] when it
    returns. *)
Record Streams := {
  write : list Event → Event → option Exc;
  flush_fails : list Event → bool;
  abspath_raises : string → option Exc
}.

(** Streams that take everything, and a working directory that is
    there. *)
Definition working : Streams :=
  {| write := λ _ _, None;
     flush_fails := λ _, false;
     abspath_raises := λ _, None |}.

Section Script.

Variable io : Streams.

(** [print(line)] *)
Definition print (line : string) : M unit := λ st,
  match write io (out st) (Print line) with
  | None => (Val (), {| path := path st; out := out st ++ [Print line] |})
  | Some e => (Exn e, st)
  end.

(** [traceback.print_exc()] in the handler of [e] *)
Definition print_exc (e : Exc) : M unit := λ st,
  match write io (out st) (PrintExc e) with
  | None => (Val (), {| path := path st; out := out st ++ [PrintExc e] |})
  | Some e' => (Exn e', st)
  end.

(** ** Lines 20-23: what the interpreter is *)

Definition header (env : Env) : M unit :=
  print ("Python version: " +:+ sys_version env) ;;
  print ("Python executable: " +:+ sys_executable env) ;;
  sp ← get_sys_path;
  print ("sys.path: " +:+ repr_list env (take 5 sp) +:+ "...") ;;
  print "".

(** ** Lines 25-32: the import of [pcbnew] under its guard *)

Definition import_body (env : Env) : M Pcbnew :=
  pcbnew ← call (import_pcbnew env);
  file ← call (pcbnew_file pcbnew);
  print ("pcbnew imported from: " +:+ file) ;;
  version ← call (GetBuildVersion pcbnew);
  print ("pcbnew version: " +:+ version) ;;
  print "" ;;
  mret pcbnew.

Definition import_handler (e : Exc) : M Pcbnew :=
  print ("FAILED to import pcbnew: " +:+ exc_str e) ;;
  sys_exit 1.

Definition import_guard (env : Env) : M Pcbnew :=
  try_except (import_body env) is_ImportError import_handler.

(** ** Lines 34-46: test 1, create a new board *)

Definition test1 (pcbnew : Pcbnew) : M unit :=
  print (str_mul "=" 60) ;;
  print banner1 ;;
  print (str_mul "=" 60) ;;
  try_except
    (board ← call (BOARD pcbnew 0);
     s ← call (board_str board);
     print ("  board = " +:+ s) ;;
     print ("  type(board) = " +:+ board_type board) ;;
     (* [board] is the object the constructor returned *)
     print ("  board is None: " +:+ str_bool false) ;;
     b ← call (board_bool board);
     print ("  bool(board): " +:+ str_bool b) ;;
     print "  Result: PASS")
    is_Exception
    (λ e, print ("  FAILED: " +:+ exc_str e)).

(** ** Lines 50-123: test 2, load the Duck Stand board *)

(** Lines 72-107: the probes of a board that was loaded. *)
Definition probe_board2 (env : Env) (board2 : Board) : M unit :=
  try_except
    (b ← call (board_bool board2);
     print ("  bool(board2): " +:+ str_bool b))
    is_Exception
    (λ e, print ("  bool(board2) FAILED: " +:+ exc_str e)) ;;
  try_except
    (name ← call (GetFileName board2);
     print ("  GetFileName(): " +:+ name))
    is_Exception
    (λ e, print ("  GetFileName() FAILED: " +:+ exc_str e)) ;;
  try_except
    (bbox ← call (GetBoardEdgesBoundingBox board2);
     w ← call (GetWidth bbox);
     print ("  BBox width: " +:+ str_div_1e6 env w +:+ " mm") ;;
     h ← call (GetHeight bbox);
     print ("  BBox height: " +:+ str_div_1e6 env h +:+ " mm"))
    is_Exception
    (λ e, print ("  GetBoardEdgesBoundingBox() FAILED: " +:+ exc_str e)) ;;
  try_except
    (footprints ← call (GetFootprints board2);
     n ← call (len footprints);
     print ("  Footprint count: " +:+ pretty n))
    is_Exception
    (λ e, print ("  GetFootprints() FAILED: " +:+ exc_str e)) ;;
  try_except
    (nets ← call (GetNetInfo board2);
     n ← call (GetNetCount nets);
     print ("  Net count: " +:+ pretty n))
    is_Exception
    (λ e, print ("  GetNetInfo() FAILED: " +:+ exc_str e)) ;;
  try_except
    (own ← call (thisown board2);
     print ("  board2.thisown: " +:+ own))
    is_AttributeError
    (λ _, print "  board2.thisown: (attribute not available)") ;;
  print "  Result: PASS".

(** [os.path.abspath(p)] *)
Definition abspath (env : Env) (p : string) : M string := λ st,
  match abspath_raises io p with
  | None => (Val (os_path_abspath env p), st)
  | Some e => (Exn e, st)
  end.

Definition test2 (env : Env) (pcbnew : Pcbnew) : M unit :=
  here ← abspath env (script_file env);
  board_path ← abspath env
    (os_path_join env
       [os_path_dirname env here; ".."; "Duck_Stand_Charge_Board";
        "Duck_Stand_Charge_Board.kicad_pcb"]);
  print (str_mul "=" 60) ;;
  print banner2 ;;
  print ("  Path: " +:+ board_path) ;;
  print ("  Exists: " +:+ str_bool (os_path_exists env board_path)) ;;
  print (str_mul "=" 60) ;;
  if os_path_exists env board_path then
    try_except
      (board2 ← call (LoadBoard pcbnew board_path);
       s ← call (str_opt board2);
       print ("  board2 = " +:+ s) ;;
       print ("  type(board2) = " +:+ type_opt board2) ;;
       print ("  board2 is None: " +:+ str_bool (is_None board2)) ;;
       match board2 with
       | Some board2 => probe_board2 env board2
       | None => print "  Result: FAIL - LoadBoard returned None"
       end)
      is_Exception
      (λ e,
        print ("  FAILED with exception: " +:+ exc_type e +:+ ": "
               +:+ exc_str e) ;;
        print_exc e)
  else
    print "  SKIPPED - file not found" ;;
    here ← abspath env (script_file env);
    print ("  Try alternative: "
           +:+ os_path_join env
                 [os_path_dirname env here; "Duck_Stand_Charge_Board";
                  "Duck_Stand_Charge_Board.kicad_pcb"]) ;;
    print ("  Alt exists: "
           +:+ str_bool
                 (os_path_exists env
                    (os_path_join env
                       [os_path_dirname env here; "Duck_Stand_Charge_Board";
                        "Duck_Stand_Charge_Board.kicad_pcb"]))).

(** ** Lines 127-152: test 3, save and reload *)

Definition test3 (env : Env) (pcbnew : Pcbnew) : M unit :=
  print (str_mul "=" 60) ;;
  print banner3 ;;
  print (str_mul "=" 60) ;;
  try_except
    (board3 ← call (BOARD pcbnew 1);
     call (SetFileName board3 tmp_path) ;;
     call (SaveBoard pcbnew tmp_path) ;;
     print ("  Saved to: " +:+ tmp_path) ;;
     board3_reload ← call (LoadBoard pcbnew tmp_path);
     s ← call (str_opt board3_reload);
     print ("  Reloaded board: " +:+ s) ;;
     print ("  Is None: " +:+ str_bool (is_None board3_reload)) ;;
     match board3_reload with
     | Some reloaded =>
         b ← call (board_bool reloaded);
         print ("  bool: " +:+ str_bool b) ;;
         name ← call (GetFileName reloaded);
         print ("  GetFileName: " +:+ name) ;;
         print "  Result: PASS"
     | None => print "  Result: FAIL - reload returned None"
     end ;;
     call (os_remove env tmp_path))
    is_Exception
    (λ e, print ("  FAILED: " +:+ exc_str e) ;; print_exc e).

(** ** The script *)

Definition tests (env : Env) (pcbnew : Pcbnew) : M unit :=
  test1 pcbnew ;;
  print "" ;;
  test2 env pcbnew ;;
  print "" ;;
  test3 env pcbnew ;;
  print "" ;;
  print "Diagnostics complete.".

Definition script (env : Env) : M unit :=
  add_kicad_paths env ;;
  header env ;;
  pcbnew ← import_guard env;
  tests env pcbnew.

(** The run of the script in an environment, on the streams [io]. *)
Definition run (env : Env) : Ctl unit * St :=
  script env {| path := sys_path env; out := [] |}.

End Script.

(** The exit status of the interpreter: 120 when the flush at exit
    fails, and otherwise 0 when the script runs to its end, the code of
    [sys.exit], and 1 after the traceback of an exception that nothing
    caught. *)
Definition exit_status (io : Streams) (r : Ctl unit * St) : Z :=
  if flush_fails io (out r.2) then 120%Z else Diagnose.exit_status r.1.

End DiagnoseIO.

(* ===================================================================== *)
(** * Part III: concrete sub-handlers and environments                     *)
(* ===================================================================== *)

Module Samples.

Import Facade.

(** Sub-handlers over boards numbered by [nat]; the toolkit state is the
    list of the commands it carried out. Without a board a command
    answers a failure mapping; [set_board_size] indexes [params["width"]]
    and raises [KeyError] when the key is missing. *)
Definition demo_method (c : Category) (name : string)
    : Method nat (list string) unit := λ h params w,
  match board h with
  | None =>
      (Return {[ "success" := VBool false;
                 "message" := VStr "No board is loaded" ]}, h, w)
  | Some _ =>
      if bool_decide (name = "set_board_size") then
        match params !! "width" with
        | Some _ => (Return {[ "success" := VBool true ]}, h, w ++ [name])
        | None => (Raise (PyExn "KeyError" "'width'"), h, w)
        end
      else (Return {[ "success" := VBool true ]}, h, w ++ [name])
  end.

Definition demo_code : SubHandlerCode nat (list string) unit :=
  {| sub_init := λ _ _, (); sub_method := demo_method |}.

(** A facade built on board 7, before anything was called. *)
Definition demo_state : State nat (list string) unit :=
  {| self := __init__ demo_code (Some 7); world := []; trace := [] |}.




Import Diagnose.

Definition demo_board : Board :=
  {| board_str := Ok "<pcbnew.BOARD; proxy of <Swig Object of type 'BOARD *'> >";
     board_type := "<class 'pcbnew.BOARD'>";
     board_bool := Ok true;
     SetFileName := λ _, Ok ();
     GetFileName := Ok "board.kicad_pcb";
     GetBoardEdgesBoundingBox :=
       Ok {| GetWidth := Ok 50000000%Z; GetHeight := Ok 30000000%Z |};
     GetFootprints := Ok {| len := Ok 12%Z |};
     GetNetInfo := Ok {| GetNetCount := Ok 9%Z |};
     thisown := Err {| exc_class := AttributeError;
                       exc_type := "AttributeError";
                       exc_str := "'BOARD' object has no attribute 'thisown'" |} |}.

Definition demo_pcbnew : Pcbnew :=
  {| pcbnew_file := Ok "/usr/lib/python3/dist-packages/pcbnew.py";
     GetBuildVersion := Ok "9.0.0";
     BOARD := λ _, Ok demo_board;
     LoadBoard := λ _, Ok (Some demo_board);
     SaveBoard := λ _, Ok () |}.

Definition kicad_3_9 : string := site_packages "3.9".
Definition kicad_3_11 : string := site_packages "3.11".

Definition duck_stand : string :=
  "/work/Duck_Stand_Charge_Board/Duck_Stand_Charge_Board.kicad_pcb".

(** A Mac with the script in /work/tools, the board file in place, the
    site-packages of Python 3.9 and 3.11 on disk, the second already on
    [sys.path], and a working [pcbnew]. *)
Definition mac_env : Env :=
  {| sys_platform := "darwin";
     sys_version := "3.11.5";
     sys_executable := "/usr/bin/python3";
     sys_path := ["/work/tools"; kicad_3_11];
     script_file := "/work/tools/diagnose_board_load.py";
     os_path_exists :=
       λ p, bool_decide (p ∈ [kicad_3_9; kicad_3_11; duck_stand]);
     os_path_abspath :=
       λ p, if bool_decide
                 (p = "/work/tools/../Duck_Stand_Charge_Board/Duck_Stand_Charge_Board.kicad_pcb")
            then duck_stand else p;
     os_path_dirname := λ _, "/work/tools";
     os_path_join := String.concat "/";
     os_remove := λ _, Ok ();
     repr_list :=
       λ l, "[" +:+ String.concat ", " ((λ a, "'" +:+ a +:+ "'") <$> l)
            +:+ "]";
     (* exact for whole millimetres, which is all the boards here have *)
     str_div_1e6 := λ n, pretty (n / 1000000)%Z +:+ ".0";
     import_pcbnew := Ok demo_pcbnew |}.

(** The same machine under another platform name. *)
Definition linux_env : Env :=
  {| sys_platform := "linux";
     sys_version := sys_version mac_env;
     sys_executable := sys_executable mac_env;
     sys_path := sys_path mac_env;
     script_file := script_file mac_env;
     os_path_exists := os_path_exists mac_env;
     os_path_abspath := os_path_abspath mac_env;
     os_path_dirname := os_path_dirname mac_env;
     os_path_join := os_path_join mac_env;
     os_remove := os_remove mac_env;
     repr_list := repr_list mac_env;
     str_div_1e6 := str_div_1e6 mac_env;
     import_pcbnew := import_pcbnew mac_env |}.

(** The environment [env] with another answer to [import pcbnew]. *)
Definition with_import (env : Env) (r : Res Pcbnew) : Env :=
  {| sys_platform := sys_platform env;
     sys_version := sys_version env;
     sys_executable := sys_executable env;
     sys_path := sys_path env;
     script_file := script_file env;
     os_path_exists := os_path_exists env;
     os_path_abspath := os_path_abspath env;
     os_path_dirname := os_path_dirname env;
     os_path_join := os_path_join env;
     os_remove := os_remove env;
     repr_list := repr_list env;
     str_div_1e6 := str_div_1e6 env;
     import_pcbnew := r |}.

(** No module [pcbnew] on [sys.path]. *)
Definition missing_module : Exc :=
  {| exc_class := ImportError;
     exc_type := "ModuleNotFoundError";
     exc_str := "No module named 'pcbnew'" |}.

Definition no_pcbnew_env : Env := with_import mac_env (Err missing_module).

(** The extension module is found and its initialisation raises an
    exception that is not an [ImportError]. *)
Definition init_failure : Exc :=
  {| exc_class := OtherException;
     exc_type := "SystemError";
     exc_str := "initialization of _pcbnew raised unreported exception" |}.

Definition broken_pcbnew_env : Env := with_import mac_env (Err init_failure).










(** A history on the facade: commands that return, one that raises, a
    name no method has, and two assignments. *)
Definition demo_history : list (Facade.Action nat) :=
  [ Facade.Invoke "add_layer" ∅;
    Facade.SetBoard None;
    Facade.Invoke "set_board_size" ∅;
    Facade.Invoke "no_such_operation" ∅;
    Facade.SetBoard (Some 3);
    Facade.Invoke "set_board_size" ∅;
    Facade.Invoke "get_board_info" ∅ ].

(** A stdout whose reader went away after [n] lines: every later write
    raises [BrokenPipeError]. The flush at exit is not modelled to fail. *)
Definition broken_pipe : Exc :=
  {| exc_class := OtherException;
     exc_type := "BrokenPipeError";
     exc_str := "[Errno 32] Broken pipe" |}.

Definition pipe_closed_after (n : nat) : DiagnoseIO.Streams :=
  {| DiagnoseIO.write :=
       λ written _, if decide (n ≤ length written) then Some broken_pipe
                    else None;
     DiagnoseIO.flush_fails := λ _, false;
     DiagnoseIO.abspath_raises := λ _, None |}.

End Samples.

(* ===================================================================== *)
(** * Part IV: properties of the facade                                    *)
(* ===================================================================== *)

Section FacadeProperties.

Import Facade.

Context {Handle World Attrs : Type}.
Variable code : SubHandlerCode Handle World Attrs.

Implicit Types (st : State Handle World Attrs) (s : BoardCommands Handle Attrs).
Implicit Types (value h : option Handle) (c : Category) (name : string).
Implicit Types (params : Dict).

(** ** The setter, step by step *)

Lemma board_setter_eq value st :
  board_setter value st =
  (Return (),
   {| self :=
        {| _board := value;
           size_commands :=
             {| board := value; attrs := attrs (size_commands (self st)) |};
           layer_commands :=
             {| board := value; attrs := attrs (layer_commands (self st)) |};
           outline_commands :=
             {| board := value;
                attrs := attrs (outline_commands (self st)) |};
           view_commands :=
             {| board := value; attrs := attrs (view_commands (self st)) |}
        |};
      world := world st;
      trace :=
        trace st ++
        [Log DEBUG
           ("BoardCommands: board reference updated and propagated to all sub-commands. board is None: "
            +:+ str_bool (is_None value))] |}).
Proof. reflexivity. Qed.

Lemma board_setter_all_boards value st :
  all_boards value (self (board_setter value st).2).
Proof.
  rewrite board_setter_eq. split; [done|]. by intros [].
Qed.

Lemma set_boards_snoc values value st :
  set_boards (values ++ [value]) st =
  match set_boards values st with
  | (Return _, st') => board_setter value st'
  | (Raise e, st') => (Raise e, st')
  end.
Proof.
  revert st. induction values as [|v values IH]; intros st.
  - reflexivity.
  - cbn [set_boards app].
    change ((board_setter v ;; set_boards (values ++ [value])) st)
      with (set_boards (values ++ [value]) (board_setter v st).2).
    rewrite IH. reflexivity.
Qed.

Lemma set_boards_returns values st :
  (set_boards values st).1 = Return ().
Proof.
  revert st. induction values as [|v values IH]; intros st; [done|].
  change (set_boards (v :: values) st)
    with (set_boards values (board_setter v st).2).
  apply IH.
Qed.

(** C1. Whatever assignments to the property [board] come first, right
    after an assignment of [value] the facade and its four sub-handlers
    all hold [value], and the assignment returns; after [d1] and then
    [d2] all five hold [d2], so that only when [d1] is [d2] does a copy
    of [d1] remain. *)
Theorem setter_reaches_every_handler st :
  (∀ values value,
     let r := set_boards (values ++ [value]) st in
     r.1 = Return () ∧ all_boards value (self r.2))
  ∧ (∀ d1 d2,
       let r := (board_setter d1 ;; board_setter d2) st in
       r.1 = Return () ∧ all_boards d2 (self r.2) ∧
       ((_board (self r.2) = d1 ∨ ∃ c, board (get_sub c (self r.2)) = d1)
        → d1 = d2)).
Proof.
  split.
  - intros values value r. subst r. split.
    + apply set_boards_returns.
    + rewrite set_boards_snoc.
      pose proof (set_boards_returns values st) as Hret.
      destruct (set_boards values st) as [[[]|e] st']; [|done].
      apply board_setter_all_boards.
  - intros d1 d2 r. subst r.
    change ((board_setter d1 ;; board_setter d2) st)
      with (board_setter d2 (board_setter d1 st).2).
    split; [done|]. split; [apply board_setter_all_boards|].
    destruct (board_setter_all_boards d2 (board_setter d1 st).2) as [Hf Hs].
    intros [Hd|[c Hd]]; [by rewrite Hf in Hd | by rewrite Hs in Hd].
Qed.

(** C5. [BoardCommands(h)] is built for every [h], [None] included: the
    constructor is a total function, each of the four sub-handlers is the
    one its class builds from [h], the facade and the four sub-handlers
    all hold [h] afterwards and the getter of the facade returns [h];
    built from [None], all five hold [None]. *)
Theorem init_reaches_every_handler h :
  (∀ c, get_sub c (__init__ code h) = new_handler code c h)
  ∧ all_boards h (__init__ code h)
  ∧ (∀ (w : World) t,
       (board_getter
          {| self := __init__ code h; world := w; trace := t |}).1
       = Return h)
  ∧ all_boards None (__init__ code None).
Proof.
  split; [by intros []|].
  split; [split; [done | by intros []]|].
  split; [done|].
  split; [done | by intros []].
Qed.

(** C7. The getter of the property [board] returns the reference the
    facade holds and leaves the whole state as it was: the facade, its
    four sub-handlers, the toolkit and the trace. *)
Theorem getter_is_pure_read st :
  board_getter st = (Return (_board (self st)), st).
Proof. reflexivity. Qed.

(** C8. Assigning [h1] and then [h2] to the property [board] leaves the
    facade, its four sub-handlers and the toolkit as assigning [h2] alone
    does; with [h1] = [h2], assigning twice is assigning once. Only the
    trace tells the two apart: it holds one more debug record. *)
Theorem setter_overwrites st h1 h2 :
  let twice := ((board_setter h1 ;; board_setter h2) st).2 in
  let once := (board_setter h2 st).2 in
  self twice = self once
  ∧ world twice = world once
  ∧ self ((board_setter h2 ;; board_setter h2) st).2 = self once
  ∧ length (trace twice) = S (length (trace once)).
Proof.
  intros twice once. subst twice once.
  change ((board_setter h1 ;; board_setter h2) st)
    with (board_setter h2 (board_setter h1 st).2).
  change ((board_setter h2 ;; board_setter h2) st)
    with (board_setter h2 (board_setter h2 st).2).
  rewrite !board_setter_eq. cbn.
  repeat split. rewrite !length_app. cbn. lia.
Qed.

(** ** The delegation methods *)

Lemma calls_app (t1 t2 : list Event) : calls (t1 ++ t2) = calls t1 ++ calls t2.
Proof. apply omap_app. Qed.

(** The names of the command methods are the names of the routing table,
    and no name occurs twice: one owner per operation name. *)
Lemma commands_names : (commands code).*1 = routing_table.*1.
Proof. reflexivity. Qed.

Lemma routing_table_NoDup : NoDup routing_table.*1.
Proof. compute_done. Qed.

Lemma owner_Some name c : owner name = Some c ↔ (name, c) ∈ routing_table.
Proof.
  unfold owner. symmetry. apply elem_of_list_to_map, routing_table_NoDup.
Qed.

Lemma owner_None name : owner name = None ↔ name ∉ routing_table.*1.
Proof. unfold owner. symmetry. apply not_elem_of_list_to_map. Qed.

(** Splits a hypothesis [(name, c) ∈ routing_table] into its ten rows. *)
Ltac rows H :=
  unfold routing_table in H;
  repeat (apply elem_of_cons in H as [H|H]; [injection H as -> ->|]);
  [..|by apply elem_of_nil in H].

(** A routed name runs the like-named method of its owner; only
    [get_board_info] writes a log record first. *)
Lemma invoke_routed name c params st :
  (name, c) ∈ routing_table →
  ∃ pre, calls pre = [] ∧
    invoke code name params st =
    call_sub code c name params
      {| self := self st; world := world st; trace := trace st ++ pre |}.
Proof.
  intros Hrow. rows Hrow;
    first [ by exists [Log INFO
                ("BoardCommands.get_board_info() called. self.board is None: "
                 +:+ str_bool (is_None (_board (self st))))]
          | exists []; split; [done|]; rewrite app_nil_r; by destruct st ].
Qed.

Lemma invoke_unrouted name params st :
  owner name = None → invoke code name params st = (Raise UnknownOperation, st).
Proof.
  intros Hnone%owner_None. unfold invoke.
  rewrite <- commands_names in Hnone.
  by rewrite (proj1 (not_elem_of_list_to_map _ _) Hnone).
Qed.

(** What a routed call answers and leaves, in terms of the method of the
    owner. *)
Lemma invoke_routed_outcome name c params st :
  (name, c) ∈ routing_table →
  let sub := sub_method code c name (get_sub c (self st)) params (world st) in
  let r := invoke code name params st in
  r.1 = sub.1.1
  ∧ calls (trace r.2) = calls (trace st) ++ [(c, name, params)]
  ∧ self r.2 = set_sub c sub.1.2 (self st)
  ∧ world r.2 = sub.2.
Proof.
  intros Hrow sub r. subst sub r.
  destruct (invoke_routed name c params st Hrow) as (pre & Hpre & ->).
  unfold call_sub. cbn [self world trace].
  destruct (sub_method code c name (get_sub c (self st)) params (world st))
    as [[o h'] w'].
  cbn. repeat split.
  by rewrite !calls_app, Hpre, app_nil_r.
Qed.

(** A routed name is the name of a command method of the class, and
    invoking it is calling that method. *)
Lemma invoke_is_method name c params st :
  (name, c) ∈ routing_table →
  ∃ method, (name, method) ∈ commands code
            ∧ invoke code name params st = method params st.
Proof.
  intros Hrow. rows Hrow; eexists; (split; [|reflexivity]);
    unfold commands; set_solver.
Qed.

(** C2. For a row [(name, c)] of the routing table and any parameters,
    invoking [name] is calling the command method [name] of the facade;
    it answers what the method [name] of the sub-handler in slot [c]
    answers on these very parameters, value or exception; it records one
    call more, that one; the facade afterwards differs from before only
    in what the method left in slot [c], and the toolkit is as the method
    left it. *)
Theorem invoke_delegates_to_owner name c params st :
  (name, c) ∈ routing_table →
  let sub := sub_method code c name (get_sub c (self st)) params (world st) in
  let r := invoke code name params st in
  (∃ method, (name, method) ∈ commands code ∧ r = method params st)
  ∧ r.1 = sub.1.1
  ∧ calls (trace r.2) = calls (trace st) ++ [(c, name, params)]
  ∧ self r.2 = set_sub c sub.1.2 (self st)
  ∧ world r.2 = sub.2.
Proof.
  intros Hrow sub r. split.
  - by apply (invoke_is_method name c).
  - by apply invoke_routed_outcome.
Qed.

(** C3. A name outside the routing table makes [invoke] raise
    UnknownOperation and leaves the state as it was, the record of calls
    included: no sub-handler is called. And when [invoke] raises, either
    the name is outside the table and the error is UnknownOperation, or
    the owner's method raised that very error: the facade has no other
    error of its own. *)
Theorem invoke_unknown_operation name params st :
  (owner name = None →
   invoke code name params st = (Raise UnknownOperation, st))
  ∧ (∀ e, (invoke code name params st).1 = Raise e →
       (owner name = None ∧ e = UnknownOperation)
       ∨ (∃ c, (name, c) ∈ routing_table ∧
            (sub_method code c name (get_sub c (self st)) params
               (world st)).1.1 = Raise e)).
Proof.
  split; [apply invoke_unrouted|].
  intros e He. destruct (owner name) as [c|] eqn:Hown.
  - right. exists c. apply owner_Some in Hown. split; [done|].
    by rewrite <- (proj1 (invoke_routed_outcome name c params st Hown)).
  - left. rewrite invoke_unrouted in He by done. cbn in He.
    split; [done | congruence].
Qed.

(** C4. When the method of the owner raises, [invoke] raises the same
    exception: nothing is caught, wrapped or replaced on the way. *)
Theorem invoke_passes_errors name c params st e :
  (name, c) ∈ routing_table →
  (sub_method code c name (get_sub c (self st)) params (world st)).1.1
    = Raise e →
  (invoke code name params st).1 = Raise e.
Proof.
  intros Hrow Hsub.
  by rewrite (proj1 (invoke_routed_outcome name c params st Hrow)).
Qed.


(** ** Beyond the claims: frames, logging and histories *)

(** X1. However many assignments to the property [board] are made, no
    method of a sub-handler is called, the toolkit is not touched, every
    sub-handler keeps what it stores besides its board, and the trace
    grows by one debug record per assignment, each telling whether the
    value assigned was [None]. *)
Theorem set_boards_frame values st :
  let st' := (set_boards values st).2 in
  trace st' = trace st ++ (setter_record <$> values)
  ∧ calls (trace st') = calls (trace st)
  ∧ world st' = world st
  ∧ ∀ c, attrs (get_sub c (self st')) = attrs (get_sub c (self st)).
Proof.
  cbn zeta. revert st. induction values as [|v values IH]; intros st.
  - cbn. by rewrite app_nil_r.
  - change (set_boards (v :: values) st)
      with (set_boards values (board_setter v st).2).
    destruct (IH (board_setter v st).2) as (Ht & Hc & Hw & Ha).
    rewrite Hc, Ht, Hw. rewrite board_setter_eq. cbn [snd trace world self].
    split; [by rewrite <- app_assoc|].
    split; [rewrite calls_app; cbn; by rewrite app_nil_r|].
    split; [done|].
    intros c. rewrite Ha. rewrite board_setter_eq. by destruct c.
Qed.

Lemma invoke_routed_exact name c params st :
  (name, c) ∈ routing_table →
  invoke code name params st =
  call_sub code c name params
    {| self := self st; world := world st;
       trace :=
         trace st ++
         (if bool_decide (name = "get_board_info")
          then [info_record (_board (self st))] else []) |}.
Proof.
  intros Hrow. rows Hrow;
    match goal with
    | |- context [bool_decide ?P] =>
        let b := eval vm_compute in (bool_decide P) in
        change (bool_decide P) with b
    end;
    first [ reflexivity | rewrite app_nil_r; by destruct st ].
Qed.

(** X2. What a routed invocation adds to the trace: the call on the
    owner, and before it, for [get_board_info] alone, one info record
    telling whether the facade's own reference is [None]. The nine other
    methods hand nothing to the logger. *)
Theorem invoke_trace name c params st :
  (name, c) ∈ routing_table →
  trace (invoke code name params st).2 =
  trace st
  ++ (if bool_decide (name = "get_board_info")
      then [info_record (_board (self st))] else [])
  ++ [Call c name params].
Proof.
  intros Hrow. rewrite (invoke_routed_exact name c params st Hrow).
  unfold call_sub. cbn [self world trace].
  destruct (sub_method code c name (get_sub c (self st)) params (world st))
    as [[o h'] w'].
  cbn. by rewrite <- app_assoc.
Qed.

(** X3. An operation invoked right after an assignment of [value] runs
    on the new reference: the method of the owner gets its object with
    [board] set to [value] and the rest as before, and the toolkit as it
    was before the assignment. *)
Theorem invoke_after_setter name c params value st :
  (name, c) ∈ routing_table →
  (invoke code name params (board_setter value st).2).1 =
  (sub_method code c name
     {| board := value; attrs := attrs (get_sub c (self st)) |}
     params (world st)).1.1.
Proof.
  intros Hrow.
  rewrite (proj1 (invoke_routed_outcome name c params _ Hrow)).
  rewrite board_setter_eq. by destruct c.
Qed.

Lemma invoke_keeps_all_boards name params st h :
  keeps_board code → all_boards h (self st) →
  all_boards h (self (invoke code name params st).2).
Proof.
  intros Hkeep [Hf Hs]. destruct (owner name) as [c|] eqn:Hown.
  - apply owner_Some in Hown.
    destruct (invoke_routed_outcome name c params st Hown)
      as (_ & _ & Hself & _).
    rewrite Hself. split; [by destruct c|].
    intros c'. destruct (decide (c' = c)) as [->|Hne].
    + rewrite <- (Hs c), <- (Hkeep c name (get_sub c (self st)) params
                              (world st)).
      by destruct c.
    + rewrite <- (Hs c'). by destruct c, c'.
  - by rewrite invoke_unrouted.
Qed.

(** X4. The five references stay equal through every history. On a
    facade whose references all are [h], after any assignments and
    invocations, of names routed or not, returning or raising, the
    facade and its four sub-handlers all hold the reference assigned
    last ([h] when none was), provided the methods of the sub-handlers
    keep their [board]. *)
Theorem references_agree_through_history history st h :
  keeps_board code →
  all_boards h (self st) →
  all_boards (last_assigned h history) (self (run_actions code history st)).
Proof.
  intros Hkeep. revert st h.
  induction history as [|[value|name params] rest IH]; intros st h Hall.
  - done.
  - cbn [run_actions last_assigned]. apply IH, board_setter_all_boards.
  - cbn [run_actions last_assigned]. by apply IH, invoke_keeps_all_boards.
Qed.

End FacadeProperties.

(* ===================================================================== *)
(** * Part V: properties of the diagnostic script                          *)
(* ===================================================================== *)

Section ScriptProperties.

Import Diagnose.

Implicit Types (env : Env) (st : St) (e : Exc) (p : string).

(** ** The path setup *)

Lemma candidates_NoDup : NoDup candidates.
Proof. compute_done. Qed.

(** Two filters that agree on the elements of a list select the same. *)
Lemma filter_agree {A} (P Q : A → Prop) `{∀ x, Decision (P x)}
    `{∀ x, Decision (Q x)} (l : list A) :
  (∀ x, x ∈ l → P x ↔ Q x) → filter P l = filter Q l.
Proof.
  induction l as [|x l IH]; intros HPQ; [done|].
  rewrite !filter_cons.
  rewrite IH by (intros y Hy; apply HPQ; by right).
  destruct (decide (P x)) as [HP|HP], (decide (Q x)) as [HQ|HQ]; try done.
  - destruct HQ. by apply (HPQ x); [left|].
  - destruct HP. by apply (HPQ x); [left|].
Qed.

Lemma add_path_eq env version st :
  add_path env version st =
  (Val (),
   if os_path_exists env (site_packages version)
      && bool_decide (site_packages version ∉ path st)
   then {| path := site_packages version :: path st; out := out st |}
   else st).
Proof.
  unfold add_path, mbind, script_bind, get_sys_path.
  by destruct (os_path_exists env (site_packages version)
               && bool_decide (site_packages version ∉ path st)).
Qed.

(** The loop of line 15, over any list of versions whose directories
    differ: the directories it inserts end up in front, last first. *)
Lemma path_loop env (vs : list string) st :
  NoDup (site_packages <$> vs) →
  for_each vs (add_path env) st
  = (Val (),
     {| path := reverse (fresh env (path st) vs) ++ path st; out := out st |}).
Proof.
  revert st. induction vs as [|v vs IH]; intros st Hnd.
  - by destruct st.
  - rewrite fmap_cons in Hnd. apply NoDup_cons in Hnd as [Hv Hnd].
    assert (∀ sp', (∀ q, q ∈ sp' ↔ q = site_packages v ∨ q ∈ path st) →
              fresh env sp' vs = fresh env (path st) vs) as Hsame.
    { intros sp' Hsp'. apply filter_agree. intros q Hq. rewrite Hsp'.
      split; intros [? Hn]; (split; [done|]).
      - intros ?. apply Hn. by right.
      - intros [->|?]; [done | by apply Hn]. }
    cbn [for_each]. unfold mbind at 1, script_bind at 1. rewrite add_path_eq.
    unfold fresh at 1. rewrite fmap_cons, filter_cons.
    fold (fresh env (path st) vs).
    destruct (os_path_exists env (site_packages v)) eqn:Hex;
      [destruct (decide (site_packages v ∉ path st)) as [Hin|Hin]|].
    + rewrite bool_decide_eq_true_2 by done. rewrite decide_True by done.
      rewrite IH by done. cbn [path out andb].
      rewrite Hsame by (intros q; apply elem_of_cons).
      by rewrite reverse_cons, <- app_assoc.
    + rewrite bool_decide_eq_false_2 by done.
      rewrite decide_False by (by intros [_ ?]).
      cbn [andb]. by rewrite IH.
    + rewrite decide_False by (by intros [? _]).
      cbn [andb]. by rewrite IH.
Qed.

Lemma add_kicad_paths_eq env st :
  add_kicad_paths env st =
  (Val (),
   {| path :=
        (if bool_decide (sys_platform env = "darwin")
         then reverse (fresh env (path st) versions) else [])
        ++ path st;
      out := out st |}).
Proof.
  unfold add_kicad_paths. case_bool_decide.
  - apply path_loop, candidates_NoDup.
  - by destruct st.
Qed.

(** C10. The path setup returns and writes nothing. Off 'darwin' it
    leaves [sys.path] as it was. On 'darwin' it puts in front of
    [sys.path] the candidate directories that exist on disk and are not
    in [sys.path], the last found first. So what it adds is candidates
    only, each of them existing, absent from [sys.path] before, and
    added once; in particular a [sys.path] without duplicates has none
    afterwards. *)
Theorem path_setup_adds_no_duplicate env st :
  let r := add_kicad_paths env st in
  r.1 = Val () ∧ out r.2 = out st
  ∧ (sys_platform env ≠ "darwin" → path r.2 = path st)
  ∧ (sys_platform env = "darwin" →
     path r.2 = reverse (fresh env (path st) versions) ++ path st)
  ∧ (∃ added,
       path r.2 = added ++ path st ∧ NoDup added ∧
       ∀ p, p ∈ added →
         sys_platform env = "darwin" ∧ p ∈ candidates ∧
         os_path_exists env p = true ∧ p ∉ path st)
  ∧ (NoDup (path st) → NoDup (path r.2)).
Proof.
  intros r. subst r. rewrite add_kicad_paths_eq. cbn [fst snd path out].
  assert (NoDup (reverse (fresh env (path st) versions))) as Hnd.
  { rewrite reverse_Permutation. apply NoDup_filter, candidates_NoDup. }
  assert (∀ p, p ∈ reverse (fresh env (path st) versions) →
            p ∈ candidates ∧ os_path_exists env p = true ∧ p ∉ path st)
    as Hin.
  { intros p Hp. apply elem_of_reverse, list_elem_of_filter in Hp.
    tauto. }
  split; [done|]. split; [done|].
  split; [intros Hp; by rewrite bool_decide_eq_false_2|].
  split; [intros Hp; by rewrite bool_decide_eq_true_2|].
  case_bool_decide as Hp.
  - split.
    + eexists. split; [done|]. split; [done|]. intros p Hpin.
      split; [done|]. by apply Hin.
    + intros Hsp. apply NoDup_app. split; [done|]. split; [|done].
      intros p Hpin. by apply Hin.
  - split; [|done].
    exists []. split; [done|]. split; [constructor|].
    intros p Hpin. by apply elem_of_nil in Hpin.
Qed.

(** ** Pieces of the script that return, pieces that do not exit *)

Lemma returns_ret {A} (a : A) : returns (mret a).
Proof. intros st. split; [done | by exists a]. Qed.

Lemma returns_print line : returns (print line).
Proof. intros st. split; [by apply prefix_app_r | by exists ()]. Qed.

Lemma returns_print_exc e : returns (print_exc e).
Proof. intros st. split; [by apply prefix_app_r | by exists ()]. Qed.

Lemma returns_bind {A B} (m : M A) (k : A → M B) :
  returns m → (∀ a, returns (k a)) → returns (m ≫= k).
Proof.
  intros Hm Hk st. destruct (Hm st) as [Hpre [a Ha]].
  unfold mbind, script_bind. destruct (m st) as [c st']. cbn in Ha, Hpre.
  subst c. destruct (Hk a st') as [Hpre' Hret].
  split; [by etrans | done].
Qed.

Lemma no_exit_of_returns {A} (m : M A) : returns m → no_exit m.
Proof.
  intros Hm st. destruct (Hm st) as [Hpre [a Ha]].
  split; [done|]. intros code. by rewrite Ha.
Qed.

Lemma no_exit_call {A} (r : Res A) : no_exit (call r).
Proof. intros st. by destruct r. Qed.

Lemma no_exit_bind {A B} (m : M A) (k : A → M B) :
  no_exit m → (∀ a, no_exit (k a)) → no_exit (m ≫= k).
Proof.
  intros Hm Hk st. destruct (Hm st) as [Hpre Hne].
  unfold mbind, script_bind. destruct (m st) as [[a|e|code] st']; cbn in Hpre.
  - destruct (Hk a st') as [Hpre' Hne']. split; [by etrans | done].
  - done.
  - by destruct (Hne code).
Qed.

Lemma no_exit_try {A} (body : M A) catches (handler : Exc → M A) :
  no_exit body → (∀ e, no_exit (handler e)) →
  no_exit (try_except body catches handler).
Proof.
  intros Hb Hh st. destruct (Hb st) as [Hpre Hne].
  unfold try_except. destruct (body st) as [[a|e|code] st']; cbn in Hpre.
  - done.
  - destruct (catches e); [|done].
    destruct (Hh e st') as [Hpre' Hne']. split; [by etrans | done].
  - by destruct (Hne code).
Qed.

(** A [try] whose [except] clause catches every exception of the model
    and whose handler returns, returns. *)
Lemma returns_try (body : M unit) catches (handler : Exc → M unit) :
  no_exit body → (∀ e, catches e = true) → (∀ e, returns (handler e)) →
  returns (try_except body catches handler).
Proof.
  intros Hb Hc Hh st. destruct (Hb st) as [Hpre Hne].
  unfold try_except. destruct (body st) as [[[]|e|code] st']; cbn in Hpre.
  - split; [done | by exists ()].
  - rewrite Hc. destruct (Hh e st') as [Hpre' Hret].
    split; [by etrans | done].
  - by destruct (Hne code).
Qed.

Lemma is_Exception_all e : is_Exception e = true.
Proof. unfold is_Exception. by destruct (exc_class e). Qed.

(** Walks through a piece of the script, one statement at a time. *)
Ltac walk_step :=
  lazymatch goal with
  | |- returns (print _) => apply returns_print
  | |- returns (print_exc _) => apply returns_print_exc
  | |- returns (mret _) => apply returns_ret
  | |- returns (mbind _ _) => apply returns_bind; [|intros ?]
  | |- returns (try_except _ _ _) =>
      apply returns_try; [|apply is_Exception_all|intros ?]
  | |- returns (match ?x with _ => _ end) => destruct x
  | |- no_exit (call _) => apply no_exit_call
  | |- no_exit (mbind _ _) => apply no_exit_bind; [|intros ?]
  | |- no_exit (try_except _ _ _) => apply no_exit_try; [|intros ?]
  | |- no_exit (match ?x with _ => _ end) => destruct x
  | |- no_exit (print _) => apply no_exit_of_returns, returns_print
  | |- no_exit (print_exc _) => apply no_exit_of_returns, returns_print_exc
  | |- no_exit (mret _) => apply no_exit_of_returns, returns_ret
  end.

Ltac walk := repeat walk_step.

Lemma test1_returns pcbnew : returns (test1 pcbnew).
Proof. unfold test1. walk. Qed.

Lemma probe_board2_no_exit env board2 : no_exit (probe_board2 env board2).
Proof. unfold probe_board2. walk. Qed.

Lemma test2_returns env pcbnew : returns (test2 env pcbnew).
Proof. unfold test2. walk. apply probe_board2_no_exit. Qed.

Lemma test3_returns env pcbnew : returns (test3 env pcbnew).
Proof. unfold test3. walk. Qed.

(** ** The banners of the tests *)

Lemma printed_stays {A} (m : M A) ev st :
  no_exit m → ev ∈ out st → ev ∈ out (m st).2.
Proof.
  intros Hm Hin. destruct (Hm st) as [Hpre _]. by eapply elem_of_prefix.
Qed.

Lemma banner_printed rule banner (rest : M unit) st :
  returns rest →
  ran_test banner ((print rule ;; print banner ;; rest) st).2.
Proof.
  intros Hrest. apply (printed_stays rest); [by apply no_exit_of_returns|].
  cbn. set_solver.
Qed.

Lemma test1_runs pcbnew st : ran_test banner1 (test1 pcbnew st).2.
Proof. apply banner_printed. walk. Qed.

Lemma test2_runs env pcbnew st : ran_test banner2 (test2 env pcbnew st).2.
Proof. apply banner_printed. walk. apply probe_board2_no_exit. Qed.

Lemma test3_runs env pcbnew st : ran_test banner3 (test3 env pcbnew st).2.
Proof. apply banner_printed. walk. Qed.

Lemma ran_seq_l (m k : M unit) banner st :
  returns m → no_exit k →
  ran_test banner (m st).2 → ran_test banner ((m ;; k) st).2.
Proof.
  intros Hm Hk. unfold ran_test, mbind, script_bind.
  destruct (Hm st) as [_ [[] E]]. destruct (m st) as [c st1].
  cbn in E |- *. subst c. apply (printed_stays k _ st1 Hk).
Qed.

Lemma ran_seq_r (m k : M unit) banner st :
  returns m →
  (∀ st', ran_test banner (k st').2) → ran_test banner ((m ;; k) st).2.
Proof.
  intros Hm Hk. unfold mbind, script_bind.
  destruct (Hm st) as [_ [[] E]]. destruct (m st) as [c st1].
  cbn in E |- *. subst c. apply Hk.
Qed.

Lemma tests_returns env pcbnew : returns (tests env pcbnew).
Proof.
  unfold tests. walk;
    [apply test1_returns | apply test2_returns | apply test3_returns].
Qed.

(** Once [pcbnew] is imported, the three tests run and the script comes
    to its end. *)
Lemma tests_run env pcbnew st :
  (tests env pcbnew st).1 = Val ()
  ∧ ran_test banner1 (tests env pcbnew st).2
  ∧ ran_test banner2 (tests env pcbnew st).2
  ∧ ran_test banner3 (tests env pcbnew st).2.
Proof.
  split; [by destruct (tests_returns env pcbnew st) as [_ [[] ?]]|].
  unfold tests. repeat split.
  - apply ran_seq_l; [apply test1_returns| |apply test1_runs].
    apply no_exit_of_returns. walk;
      [apply test2_returns | apply test3_returns].
  - apply ran_seq_r; [apply test1_returns|]. intros st1.
    apply ran_seq_r; [apply returns_print|]. intros st1'.
    apply ran_seq_l; [apply test2_returns| |apply test2_runs].
    apply no_exit_of_returns. walk. apply test3_returns.
  - apply ran_seq_r; [apply test1_returns|]. intros st1.
    apply ran_seq_r; [apply returns_print|]. intros st1'.
    apply ran_seq_r; [apply test2_returns|]. intros st2.
    apply ran_seq_r; [apply returns_print|]. intros st2'.
    apply ran_seq_l; [apply test3_returns| |apply test3_runs].
    apply no_exit_of_returns. walk.
Qed.

(** ** The script up to the end of the import guard *)

Lemma plain_lines_no_banner banner lines sp :
  String.get 0 banner = Some "T"%char →
  Forall plain lines →
  ¬ ran_test banner {| path := sp; out := Print <$> lines |}.
Proof.
  intros Hb Hplain Hran. unfold ran_test in Hran. cbn in Hran.
  apply list_elem_of_fmap in Hran as (line & [= <-] & Hin).
  by apply (proj1 (Forall_forall _ _) Hplain) in Hin.
Qed.

Lemma header_eq env st :
  ∃ lines, Forall plain lines ∧
    header env st =
    (Val (), {| path := path st; out := out st ++ (Print <$> lines) |}).
Proof.
  exists ["Python version: " +:+ sys_version env;
          "Python executable: " +:+ sys_executable env;
          "sys.path: " +:+ repr_list env (take 5 (path st)) +:+ "...";
          ""].
  split; [by repeat constructor|].
  unfold header, mbind, script_bind, print, get_sys_path. cbn.
  by rewrite <- !app_assoc.
Qed.

Lemma import_guard_eq env st :
  match guard_raises env with
  | Some e =>
      ∃ lines, Forall plain lines ∧
        import_guard env st =
        (if is_ImportError e then SysExit 1 else Exn e,
         {| path := path st; out := out st ++ (Print <$> lines) |})
  | None => ∃ pcbnew st', import_guard env st = (Val pcbnew, st')
  end.
Proof.
  unfold guard_raises, import_guard, import_body, try_except.
  unfold import_handler, mbind, script_bind, call, print, sys_exit.
  destruct (import_pcbnew env) as [pcbnew|e].
  - destruct (pcbnew_file pcbnew) as [file|e].
    + destruct (GetBuildVersion pcbnew) as [version|e].
      * by eexists _, _.
      * destruct (is_ImportError e).
        -- exists ["pcbnew imported from: " +:+ file;
                   "FAILED to import pcbnew: " +:+ exc_str e].
           split; [by repeat constructor|]. cbn.
           by rewrite <- !app_assoc.
        -- exists ["pcbnew imported from: " +:+ file].
           split; [by repeat constructor|done].
    + destruct (is_ImportError e).
      * exists ["FAILED to import pcbnew: " +:+ exc_str e].
        split; [by repeat constructor|done].
      * exists []. split; [constructor|]. cbn. rewrite app_nil_r.
        by destruct st.
  - destruct (is_ImportError e).
    + exists ["FAILED to import pcbnew: " +:+ exc_str e].
      split; [by repeat constructor|done].
    + exists []. split; [constructor|]. cbn. rewrite app_nil_r.
      by destruct st.
Qed.

Lemma run_unfold env :
  ∃ lines sp, Forall plain lines ∧
    run env =
    match import_guard env {| path := sp; out := Print <$> lines |} with
    | (Val pcbnew, st) => tests env pcbnew st
    | (Exn e, st) => (Exn e, st)
    | (SysExit code, st) => (SysExit code, st)
    end.
Proof.
  unfold run, script. unfold mbind at 1, script_bind at 1.
  rewrite add_kicad_paths_eq. cbn [path out].
  set (st1 := {| path := _; out := [] |}).
  unfold mbind at 1, script_bind at 1.
  destruct (header_eq env st1) as (hlines & Hh & ->).
  by exists hlines, (path st1).
Qed.

(** The run, by what happens under the guard. *)
Lemma run_eq env :
  match guard_raises env with
  | Some e =>
      ∃ lines sp, Forall plain lines ∧
        run env =
        (if is_ImportError e then SysExit 1 else Exn e,
         {| path := sp; out := Print <$> lines |})
  | None => ∃ pcbnew st, run env = tests env pcbnew st
  end.
Proof.
  destruct (run_unfold env) as (hlines & sp & Hh & ->).
  set (st2 := {| path := sp; out := _ |}).
  pose proof (import_guard_eq env st2) as Hg.
  destruct (guard_raises env) as [e|].
  - destruct Hg as (glines & Hgl & ->).
    exists (hlines ++ glines), sp.
    split; [by apply Forall_app|].
    subst st2. cbn. rewrite fmap_app.
    by destruct (is_ImportError e).
  - destruct Hg as (pcbnew & st3 & ->). by exists pcbnew, st3.
Qed.

(** ** The exit status *)

(** The exit status when every write succeeds. When [import pcbnew]
    raises an [ImportError] the script leaves through [sys.exit(1)]. It
    leaves through [sys.exit(1)] exactly when an [ImportError] is raised
    under the guard, and its exit status is 1 exactly when any exception
    is raised under the guard: one that is not an [ImportError] is
    caught nowhere. Whenever the exit status is 1, none of the three
    tests has run; otherwise the script comes to its end and all three
    have run. *)
Lemma exit_on_working_streams env :
  let r := run env in
  (∀ e, import_pcbnew env = Err e → exc_class e = ImportError →
     r.1 = SysExit 1 ∧ exit_status r.1 = 1%Z)
  ∧ (r.1 = SysExit 1 ↔
     ∃ e, guard_raises env = Some e ∧ exc_class e = ImportError)
  ∧ (exit_status r.1 = 1%Z ↔ ∃ e, guard_raises env = Some e)
  ∧ (exit_status r.1 = 1%Z →
     ¬ ran_test banner1 r.2 ∧ ¬ ran_test banner2 r.2 ∧
     ¬ ran_test banner3 r.2)
  ∧ (exit_status r.1 ≠ 1%Z →
     r.1 = Val () ∧ ran_test banner1 r.2 ∧ ran_test banner2 r.2 ∧
     ran_test banner3 r.2).
Proof.
  intros r. subst r. pose proof (run_eq env) as Hrun.
  destruct (guard_raises env) as [e|] eqn:Hg.
  - destruct Hrun as (lines & sp & Hplain & ->).
    unfold is_ImportError. cbn [fst snd].
    split; [|split; [|split; [|split]]].
    + intros e' Himp Hcls. unfold guard_raises in Hg. rewrite Himp in Hg.
      injection Hg as <-. by rewrite bool_decide_eq_true_2.
    + split.
      * intros Hexit. exists e. split; [done|].
        by case_bool_decide.
      * intros (e' & [= <-] & Hcls). by rewrite bool_decide_eq_true_2.
    + split; [by eauto|]. intros _. by case_bool_decide.
    + intros _. by repeat split; apply plain_lines_no_banner.
    + intros Hne. destruct Hne. by case_bool_decide.
  - destruct Hrun as (pcbnew & st & ->).
    destruct (tests_run env pcbnew st) as (Hval & B1 & B2 & B3).
    rewrite Hval. cbn [exit_status].
    split; [|split; [|split; [|split]]].
    + intros e Himp. unfold guard_raises in Hg. by rewrite Himp in Hg.
    + split; [done|]. by intros (e & ? & _).
    + split; [done|]. by intros [e ?].
    + done.
    + done.
Qed.

(** ** Beyond the claims: [sys.path] and the header *)



Lemma fresh_none env (sp vs : list string) :
  (∀ p, p ∈ site_packages <$> vs → os_path_exists env p = true → p ∈ sp) →
  fresh env sp vs = [].
Proof.
  unfold fresh. induction (site_packages <$> vs) as [|q l IH]; intros Hin.
  - done.
  - rewrite filter_cons, decide_False.
    + apply IH. intros p Hp. apply Hin. by right.
    + intros [Hex Hq]. apply Hq, Hin; [by left | done].
Qed.

(** X6. The path setup is idempotent: run again on the [sys.path] it
    left, it returns and changes nothing, on every platform. *)
Theorem path_setup_idempotent env st :
  add_kicad_paths env (add_kicad_paths env st).2
  = (Val (), (add_kicad_paths env st).2).
Proof.
  rewrite (add_kicad_paths_eq env st). cbn [snd].
  rewrite add_kicad_paths_eq. cbn [path out]. case_bool_decide as Hp.
  - rewrite fresh_none; [done|].
    intros p Hp' Hex. apply elem_of_app.
    destruct (decide (p ∈ path st)) as [Hin|Hin]; [by right|left].
    apply elem_of_reverse, list_elem_of_filter. done.
  - done.
Qed.






(** ** Beyond the claims: the tests one by one *)











End ScriptProperties.

(* ===================================================================== *)
(** * Part V, continued: the exit status on streams that can fail          *)
(* ===================================================================== *)

Section StreamProperties.

Import Diagnose.

Implicit Types (env : Env) (st : St) (e : Exc) (io : DiagnoseIO.Streams).

(** On streams that take everything the script is the script of
    [Diagnose], and so is its exit status. *)
Lemma working_streams_run env :
  DiagnoseIO.run DiagnoseIO.working env = run env
  ∧ DiagnoseIO.exit_status DiagnoseIO.working
      (DiagnoseIO.run DiagnoseIO.working env)
    = exit_status (run env).1.
Proof. split; reflexivity. Qed.

Lemma prefix_of_plain_no_banner banner lines st :
  String.get 0 banner = Some "T"%char →
  Forall plain lines →
  out st `prefix_of` Print <$> lines →
  ¬ ran_test banner st.
Proof.
  intros Hb Hplain Hpre Hran.
  apply (plain_lines_no_banner banner lines (path st) Hb Hplain).
  unfold ran_test in *. cbn. by eapply elem_of_prefix.
Qed.

Lemma header_and_failure_plain env sp e :
  Forall plain
    (header_lines env sp
     ++ (if is_ImportError e
         then ["FAILED to import pcbnew: " +:+ exc_str e] else [])).
Proof.
  apply Forall_app. split; [by repeat constructor|].
  destruct (is_ImportError e); by repeat constructor.
Qed.

(** The run when [import pcbnew] raises, on any streams: it ends in the
    header or in the handler of the guard. *)
Lemma run_import_raises io env e :
  import_pcbnew env = Err e →
  ∃ c written,
    DiagnoseIO.run io env
    = (c, {| path := path (add_kicad_paths env (start env)).2;
             out := written |})
    ∧ written `prefix_of`
        Print <$> (header_lines env
                     (path (add_kicad_paths env (start env)).2)
                   ++ (if is_ImportError e
                       then ["FAILED to import pcbnew: " +:+ exc_str e]
                       else []))
    ∧ ((c = SysExit 1 ∧ is_ImportError e = true) ∨ ∃ e', c = Exn e').
Proof.
  intros Himp.
  unfold DiagnoseIO.run, DiagnoseIO.script, start.
  unfold mbind at 1, script_bind at 1. rewrite add_kicad_paths_eq.
  cbn [path out snd].
  set (sp := _ ++ sys_path env).
  unfold DiagnoseIO.header, DiagnoseIO.import_guard, DiagnoseIO.import_body,
    DiagnoseIO.import_handler, DiagnoseIO.print, try_except, call, sys_exit,
    get_sys_path, mbind, script_bind, header_lines.
  rewrite Himp. cbn.
  destruct (is_ImportError e);
    repeat match goal with
           | |- context [DiagnoseIO.write io ?t ?ev] =>
               destruct (DiagnoseIO.write io t ev); cbn
           end;
    eexists _, _; (split; [reflexivity|]);
    (split; [by eexists | eauto]).
Qed.

(** C9, as the code has it. When [import pcbnew] raises, an
    [ImportError] or any other exception, the script ends before any of
    the three tests, with exit status 1 unless the flush at exit fails,
    whatever the streams do: it leaves through [sys.exit(1)], which it
    reaches for an [ImportError] only, or through an exception that
    nothing catches. On streams that take everything, it leaves through
    [sys.exit(1)] exactly when an [ImportError] is raised under the
    guard, its exit status is 1 exactly when any exception is raised
    under the guard, then no test has run, and otherwise the script
    comes to its end and all three tests have run. *)
Theorem import_error_exits_before_tests io env :
  (∀ e, import_pcbnew env = Err e →
     let r := DiagnoseIO.run io env in
     DiagnoseIO.exit_status io r
     = (if DiagnoseIO.flush_fails io (out r.2) then 120 else 1)%Z
     ∧ (r.1 = SysExit 1 → exc_class e = ImportError)
     ∧ ¬ ran_test banner1 r.2 ∧ ¬ ran_test banner2 r.2
     ∧ ¬ ran_test banner3 r.2)
  ∧ (let r := DiagnoseIO.run DiagnoseIO.working env in
     let status := DiagnoseIO.exit_status DiagnoseIO.working r in
     (∀ e, import_pcbnew env = Err e → exc_class e = ImportError →
        r.1 = SysExit 1 ∧ status = 1%Z)
     ∧ (r.1 = SysExit 1 ↔
        ∃ e, guard_raises env = Some e ∧ exc_class e = ImportError)
     ∧ (status = 1%Z ↔ ∃ e, guard_raises env = Some e)
     ∧ (status = 1%Z →
        ¬ ran_test banner1 r.2 ∧ ¬ ran_test banner2 r.2 ∧
        ¬ ran_test banner3 r.2)
     ∧ (status ≠ 1%Z →
        r.1 = Val () ∧ ran_test banner1 r.2 ∧ ran_test banner2 r.2 ∧
        ran_test banner3 r.2)).
Proof.
  split.
  - intros e Himp r. subst r.
    destruct (run_import_raises io env e Himp)
      as (c & written & -> & Hpre & Hend).
    unfold DiagnoseIO.exit_status. cbn [fst snd out].
    pose proof (header_and_failure_plain env
                  (path (add_kicad_paths env (start env)).2) e) as Hplain.
    split; [|split].
    + by destruct Hend as [[-> _]|[e' ->]].
    + intros ->. destruct Hend as [[_ Hcls]|[e' [=]]].
      by apply bool_decide_eq_true in Hcls.
    + by repeat split; eapply prefix_of_plain_no_banner.
  - exact (exit_on_working_streams env).
Qed.

End StreamProperties.

(* ===================================================================== *)
(** * Part VI: the properties at work                                      *)
(* ===================================================================== *)

Section Instances.

Import Facade Diagnose Samples.

(** Board 1, then board 2, on a facade built on board 7: all five
    references are board 2, none is board 1. *)
Lemma setter_reaches_every_handler_witness :
  all_boards (Some 2)
    (self ((board_setter (Some 1) ;; board_setter (Some 2)) demo_state).2)
  ∧ _board
      (self ((board_setter (Some 1) ;; board_setter (Some 2)) demo_state).2)
    ≠ Some 1
  ∧ ∀ c,
      board
        (get_sub c
           (self ((board_setter (Some 1) ;; board_setter (Some 2))
                    demo_state).2))
      ≠ Some 1.
Proof.
  destruct (proj2 (setter_reaches_every_handler demo_state)
              (Some 1) (Some 2)) as (_ & Hall & Hstale).
  split; [exact Hall|]. split.
  - intros Hs. discriminate (Hstale (or_introl Hs)).
  - intros c Hs. discriminate (Hstale (or_intror (ex_intro _ c Hs))).
Defined.

(** The facade on board 7, asked to add a layer. *)
Lemma invoke_delegates_to_owner_witness :
  ("add_layer", CLayer) ∈ routing_table
  ∧ (invoke demo_code "add_layer" ∅ demo_state).1
    = Return {[ "success" := VBool true ]}
  ∧ calls (trace (invoke demo_code "add_layer" ∅ demo_state).2)
    = [(CLayer, "add_layer", ∅)].
Proof.
  assert (("add_layer", CLayer) ∈ routing_table) as Hrow by compute_done.
  split; [exact Hrow|].
  destruct (invoke_delegates_to_owner demo_code "add_layer" CLayer ∅
              demo_state Hrow) as (_ & Hres & Hcalls & _).
  split; [rewrite Hres | rewrite Hcalls]; reflexivity.
Defined.

(** A name no method has. *)
Lemma invoke_unknown_operation_witness :
  owner "no_such_operation" = None
  ∧ invoke demo_code "no_such_operation" ∅ demo_state
    = (Raise UnknownOperation, demo_state).
Proof.
  split; [reflexivity|].
  apply (proj1 (invoke_unknown_operation demo_code "no_such_operation" ∅
                  demo_state)).
  reflexivity.
Defined.

(** [set_board_size] without a width: the [KeyError] of the sub-handler
    is what the caller gets. *)
Lemma invoke_passes_errors_witness :
  ("set_board_size", CSize) ∈ routing_table
  ∧ (invoke demo_code "set_board_size" ∅ demo_state).1
    = Raise (PyExn "KeyError" "'width'").
Proof.
  assert (("set_board_size", CSize) ∈ routing_table) as Hrow
    by compute_done.
  split; [exact Hrow|].
  apply (invoke_passes_errors demo_code "set_board_size" CSize ∅ demo_state
           (PyExn "KeyError" "'width'") Hrow).
  reflexivity.
Defined.

Lemma demo_code_keeps_board : keeps_board demo_code.
Proof.
  intros c name h params w. cbn [sub_method demo_code]. unfold demo_method.
  by repeat case_match.
Qed.



(** On the Mac the directory of Python 3.9 goes to the front, that of
    3.11 is on the path already; under another platform name nothing
    moves. *)
Lemma path_setup_adds_no_duplicate_witness :
  sys_platform mac_env = "darwin"
  ∧ path (add_kicad_paths mac_env {| path := sys_path mac_env; out := [] |}).2
    = [kicad_3_9; "/work/tools"; kicad_3_11]
  ∧ sys_platform linux_env ≠ "darwin"
  ∧ path (add_kicad_paths linux_env
            {| path := sys_path linux_env; out := [] |}).2
    = sys_path linux_env.
Proof.
  split; [reflexivity|]. split.
  - destruct (path_setup_adds_no_duplicate mac_env
                {| path := sys_path mac_env; out := [] |})
      as (_ & _ & _ & Hmac & _).
    rewrite (Hmac eq_refl). reflexivity.
  - assert (sys_platform linux_env ≠ "darwin") as Hlinux by discriminate.
    split; [exact Hlinux|].
    destruct (path_setup_adds_no_duplicate linux_env
                {| path := sys_path linux_env; out := [] |})
      as (_ & _ & Hoff & _).
    exact (Hoff Hlinux).
Defined.

(** Without a module [pcbnew]: on working streams the script leaves
    through [sys.exit(1)]; on a pipe closed after two lines it leaves
    through the [BrokenPipeError] of the third line of the header, with
    status 1 all the same. *)
Lemma import_error_exits_before_tests_witness :
  import_pcbnew no_pcbnew_env = Err missing_module
  ∧ exc_class missing_module = ImportError
  ∧ (DiagnoseIO.run DiagnoseIO.working no_pcbnew_env).1 = SysExit 1
  ∧ (DiagnoseIO.run (pipe_closed_after 2) no_pcbnew_env).1 = Exn broken_pipe
  ∧ DiagnoseIO.exit_status (pipe_closed_after 2)
      (DiagnoseIO.run (pipe_closed_after 2) no_pcbnew_env) = 1%Z.
Proof.
  split; [reflexivity|]. split; [reflexivity|]. split.
  - apply (proj1 (proj2 (import_error_exits_before_tests DiagnoseIO.working
                           no_pcbnew_env)) missing_module); reflexivity.
  - split; [reflexivity|].
    rewrite (proj1 (proj1 (import_error_exits_before_tests
                             (pipe_closed_after 2) no_pcbnew_env)
                      missing_module eq_refl)).
    reflexivity.
Defined.

(** C9 as the specification words it fails where the import raises an
    exception that is no [ImportError]: nothing catches it, the
    interpreter ends with status 1, and no [ImportError] was raised. *)
Lemma exit_1_without_ImportError :
  ¬ (exit_status (run broken_pcbnew_env).1 = 1%Z ↔
     ∃ e, import_pcbnew broken_pcbnew_env = Err e
          ∧ exc_class e = ImportError).
Proof.
  intros [Hexit _].
  destruct (Hexit eq_refl) as (e & Himp & Hcls).
  injection Himp as <-. discriminate Hcls.
Qed.

(** What that run leaves: the exception on its way out, and the four
    lines of the header on stdout. *)
Example broken_pcbnew_run :
  (run broken_pcbnew_env).1 = Exn init_failure
  ∧ length (out (run broken_pcbnew_env).2) = 4.
Proof. split; reflexivity. Qed.

(** The whole script on the Mac: status 0, and the probes of test 2
    report the missing attribute [thisown] without ending the test. *)
Example mac_run :
  exit_status (run mac_env).1 = 0%Z
  ∧ Print "  board2.thisown: (attribute not available)" ∈ out (run mac_env).2
  ∧ Print "  BBox width: 50.0 mm" ∈ out (run mac_env).2
  ∧ last (out (run mac_env).2) = Some (Print "Diagnostics complete.").
Proof. repeat split; compute_done. Qed.

(** ** The further properties at work *)

Lemma invoke_trace_witness :
  ("get_board_info", CView) ∈ routing_table
  ∧ trace (invoke demo_code "get_board_info" ∅ demo_state).2
    = [Log INFO
         "BoardCommands.get_board_info() called. self.board is None: False";
       Call CView "get_board_info" ∅].
Proof.
  assert (("get_board_info", CView) ∈ routing_table) as Hrow
    by compute_done.
  split; [exact Hrow|].
  rewrite (invoke_trace demo_code "get_board_info" CView ∅ demo_state Hrow).
  reflexivity.
Defined.

(** Board 7 replaced by no board: the next command answers that no
    board is loaded. *)
Lemma invoke_after_setter_witness :
  ("add_layer", CLayer) ∈ routing_table
  ∧ (invoke demo_code "add_layer" ∅ (board_setter None demo_state).2).1
    = Return {[ "success" := VBool false;
                "message" := VStr "No board is loaded" ]}.
Proof.
  assert (("add_layer", CLayer) ∈ routing_table) as Hrow by compute_done.
  split; [exact Hrow|].
  rewrite (invoke_after_setter demo_code "add_layer" CLayer ∅ None
             demo_state Hrow).
  reflexivity.
Defined.

Lemma references_agree_through_history_witness :
  keeps_board demo_code
  ∧ all_boards (Some 7) (self demo_state)
  ∧ all_boards (Some 3) (self (run_actions demo_code demo_history demo_state)).
Proof.
  assert (all_boards (Some 7) (self demo_state)) as Hall.
  { split; [reflexivity | intros []; reflexivity]. }
  split; [exact demo_code_keeps_board|]. split; [exact Hall|].
  exact (references_agree_through_history demo_code demo_history demo_state
           (Some 7) demo_code_keeps_board Hall).
Defined.







End Instances.
